(** * SteamAPI: the identifier resolver and the bulk fetchers

    A shallow embedding of the [SteamAPIController] module: the URL
    normaliser [resolveURL], the synchronous and asynchronous resolvers
    [getSteamID] / [getSteamIDAsync], the vanity lookup [resolveVanityUrl]
    and the two bulk fetchers [GetPlayerSummaries] / [GetPlayerBans].

    JavaScript strings are modelled as [string]; every pattern the module
    searches for is plain ASCII, so scanning bytes and scanning UTF-16 code
    units find the same occurrences. *)

From Stdlib Require Import String Ascii List Bool Arith ZArith Lia.
From ExtLib Require Import Structures.Monad Structures.MonadExc.
Import ListNotations.
Import MonadNotation.
Local Open Scope string_scope.

(** ** String primitives used by [resolveURL] *)

Module Str.

(** [strip_prefix p s] is [Some r] exactly when [s = p ++ r]. *)
Fixpoint strip_prefix (p s : string) : option string :=
  match p with
  | EmptyString => Some s
  | String c p' =>
      match s with
      | EmptyString => None
      | String d s' => if Ascii.eqb c d then strip_prefix p' s' else None
      end
  end.

(** The two patterns of [resolveURL] have the shape [/http[s]{0,1}TAIL/]
    with a literal [TAIL].  [regex_match_here tail s] runs that pattern at
    the first position of [s] and returns what follows the match.  The
    quantifier is greedy: the branch that consumes the [s] is tried first. *)
Definition regex_match_here (tail s : string) : option string :=
  match strip_prefix "http" s with
  | None => None
  | Some r =>
      match strip_prefix (String "s" tail) r with
      | Some r' => Some r'
      | None => strip_prefix tail r
      end
  end.

(** [String.prototype.match] with a non-global pattern, used as a truth
    value: is there a position where the pattern matches? *)
Fixpoint regex_test (tail s : string) : bool :=
  match regex_match_here tail s with
  | Some _ => true
  | None =>
      match s with
      | EmptyString => false
      | String _ s' => regex_test tail s'
      end
  end.

(** [String.prototype.replace(pattern, '')] with a non-global pattern: the
    leftmost match is cut out, a string without a match is returned as is. *)
Fixpoint regex_replace_first (tail s : string) : string :=
  match regex_match_here tail s with
  | Some r => r
  | None =>
      match s with
      | EmptyString => EmptyString
      | String c s' => String c (regex_replace_first tail s')
      end
  end.

(** [String.prototype.replace(c, '')] with a one-character string pattern:
    only the first occurrence is removed. *)
Fixpoint replace_first_char (c : ascii) (s : string) : string :=
  match s with
  | EmptyString => EmptyString
  | String d s' => if Ascii.eqb c d then s' else String d (replace_first_char c s')
  end.

Fixpoint count_char (c : ascii) (s : string) : nat :=
  match s with
  | EmptyString => 0
  | String d s' => (if Ascii.eqb c d then 1 else 0) + count_char c s'
  end.

End Str.

(** ** [resolveURL] *)

(** [/http[s]{0,1}:\/\/steamcommunity\.com\/profiles\//] *)
Definition profilesRegex : string := "://steamcommunity.com/profiles/".

(** [/http[s]{0,1}:\/\/steamcommunity\.com\/id\//] *)
Definition customRegex : string := "://steamcommunity.com/id/".

Definition resolveURL (url : string) : string :=
  if Str.regex_test profilesRegex url || Str.regex_test customRegex url then
    Str.replace_first_char "/"
      (Str.regex_replace_first customRegex
         (Str.regex_replace_first profilesRegex url))
  else url.

(** ** Data model *)

Inductive CommunityVisibility := VISIBLE | NOT_VISIBLE.

Inductive PersonaState :=
  OFFLINE | ONLINE | BUSY | AWAY | SNOOZE | LOOKING_TO_TRADE | LOOKING_TO_PLAY.

Record PlayerSummary := {
  ps_steamid : string;
  communityvisibilitystate : CommunityVisibility;
  profilestate : bool;
  personaname : string;
  lastlogoff : Z;
  commentpermission : bool;
  profileurl : string;
  avatar : string;
  avatarmedium : string;
  avatarfull : string;
  personastate : PersonaState;
  realname : option string;
  primaryclanid : option string;
  timecreated : option Z;
  loccountrycode : option string;
  locstatecode : option string;
  gameid : option string;
  gameserverip : option string;
  gameserversteamid : option string;
  gameextrainfo : option string
}.

Record PlayerBans := {
  SteamId : string;
  CommunityBanned : bool;
  VACBanned : bool;
  NumberOfVACBans : Z;
  DaysSinceLastBan : Z;
  NumberOfGameBans : Z;
  EconomyBan : string
}.

(** [response.data.response] of a [PlayerSummaryResponse]; [players] is an
    optional field. *)
Record PlayerSummaryResponse := { players : option (list PlayerSummary) }.

(** What [GetPlayerBans] reads from its response: the [players] member,
    which the code guards against being undefined. *)
Record PlayerBansResponse := { bans_players : option (list PlayerBans) }.

(** [response.data.response] of a [VanityURLResponse]. *)
Record VanityURLResponse := {
  success : Z;
  steamid : option string;
  message : option string
}.

(** ** The [steamid] package

    [SteamID] is imported from the npm package of that name.  The module
    uses its constructor on a string, which throws on a string it does not
    recognise, and the method [getSteamID64]. *)
Class SteamIDPackage := {
  SteamID : Type;
  parseSteamID : string -> option SteamID;
  getSteamID64 : SteamID -> string
}.

(** [type SteamIDResolvable = string | SteamID] *)
Inductive SteamIDResolvable `{SteamIDPackage} :=
| OfString (s : string)
| OfSteamID (sid : SteamID).

(** ** Effects: thrown values, the key slot and the network *)

Inductive Thrown :=
| ErrorObject (msg : string)      (* throw new Error(msg) *)
| ThrownString (msg : string)     (* throw 'msg' *)
| SteamIDError (input : string)   (* new SteamID(input) threw *)
| AxiosError (reason : string).   (* the promise of axios.get rejected *)

Inductive Completion (A : Type) :=
| Return (a : A)
| Throw (e : Thrown).
Arguments Return {A} a.
Arguments Throw {A} e.

(** The module-level [apiKey] together with the log of the URLs handed to
    [axios.get], oldest first. *)
Record State := { apiKey : string; requests : list string }.

(** [let apiKey: string = ''] *)
Definition initial : State := {| apiKey := ""; requests := [] |}.

(** An asynchronous function: it reads the key, may issue requests and
    settles with a value or a thrown one.  What it logged stays logged
    when it throws. *)
Definition Js (A : Type) : Type := State -> Completion A * State.

#[export] Instance Monad_Completion : Monad Completion := {
  ret := fun _ a => Return a;
  bind := fun _ _ c k => match c with Return a => k a | Throw e => Throw e end
}.

#[export] Instance Monad_Js : Monad Js := {
  ret := fun _ a st => (Return a, st);
  bind := fun _ _ c k st =>
    match c st with
    | (Return a, st') => k a st'
    | (Throw e, st') => (Throw e, st')
    end
}.

#[export] Instance Exc_Js : MonadExc Thrown Js := {
  raise := fun _ e st => (Throw e, st);
  catch := fun _ c h st =>
    match c st with
    | (Return a, st') => (Return a, st')
    | (Throw e, st') => h e st'
    end
}.

(** A synchronous call made from an asynchronous function. *)
Definition lift {A} (c : Completion A) : Js A := fun st => (c, st).

Definition readApiKey : Js string := fun st => (Return (apiKey st), st).

(** How one [axios.get] settles: it rejects, or it resolves with a
    response, which the callers test for truthiness before use.  A truthy
    response is taken to have the shape its cast declares; one without the
    [data.response] envelope, on which reading [players] or [steamid]
    raises a [TypeError], has no counterpart here. *)
Inductive Http (A : Type) :=
| Rejected (reason : string)
| Resolved (response : option A).
Arguments Rejected {A} reason.
Arguments Resolved {A} response.

(** The remote service, seen through the three casts the module applies to
    what [axios.get] resolves with. *)
Record Axios := {
  summaries : string -> Http PlayerSummaryResponse;
  bans : string -> Http PlayerBansResponse;
  vanity : string -> Http VanityURLResponse
}.

(** [await axios.get(url)] *)
Definition axios_get {A} (view : string -> Http A) (url : string) : Js (option A) :=
  fun st =>
    let st' := {| apiKey := apiKey st; requests := (requests st ++ [url])%list |} in
    match view url with
    | Rejected reason => (Throw (AxiosError reason), st')
    | Resolved response => (Return response, st')
    end.

(** [for (...) returnArray.push(dataArray[index])] *)
Definition push_all {A} (dataArray returnArray : list A) : list A :=
  fold_left (fun acc data => (acc ++ [data])%list) dataArray returnArray.

(** The guard [dataArray && dataArray.length] followed by the copy loop. *)
Definition collect {A} (dataArray : option (list A)) : list A :=
  match dataArray with
  | Some ((_ :: _) as l) => push_all l []
  | _ => []
  end.

(** The response lists nobody: [players] is absent or empty. *)
Definition NoEntries {A} (dataArray : option (list A)) : Prop :=
  dataArray = None \/ dataArray = Some [].

Definition tooMany : string := "Only 100 steamIDs can be requested at a time!".

(** The three request URLs, as the template literals build them;
    [steamIDs.join(',')] is [String.concat]. *)
Definition summariesURL (key : string) (steamIDs : list string) : string :=
  "http://api.steampowered.com/ISteamUser/GetPlayerSummaries/v0002/?key="
    ++ key ++ "&steamids=" ++ String.concat "," steamIDs.

Definition bansURL (key : string) (steamIDs : list string) : string :=
  "http://api.steampowered.com/ISteamUser/GetPlayerBans/v1/?key="
    ++ key ++ "&steamids=" ++ String.concat "," steamIDs.

Definition vanityURL (key vanityName : string) : string :=
  "http://api.steampowered.com/ISteamUser/ResolveVanityURL/v0001/?key="
    ++ key ++ "&vanityurl=" ++ vanityName.

(** ** The module of [src/index.ts]: string targets only *)

Module LegacyController.
Section Legacy.
Local Open Scope monad_scope.
Variable axios : Axios.

Definition setApiKey (key : string) (st : State) : State :=
  {| apiKey := key; requests := requests st |}.

Definition getPlayerSummaries (targets : list string) : Js (list PlayerSummary) :=
  if (100 <? List.length targets)%nat then raise (ThrownString tooMany)
  else
    key <- readApiKey ;;
    response <- axios_get (summaries axios) (summariesURL key targets) ;;
    ret (match response with
         | Some r => collect (players r)
         | None => []
         end).

Definition resolveVanityUrl (vanityName : string) : Js string :=
  key <- readApiKey ;;
  response <- axios_get (vanity axios) (vanityURL key vanityName) ;;
  match response with
  | Some r =>
      (* [if (steamID)]: an absent and an empty string are both falsy *)
      match steamid r with
      | Some (String _ _ as steamID) => ret steamID
      | _ => raise (ThrownString "Not a valid SteamID")
      end
  | None => raise (ThrownString "Could not reach the VanityURL API")
  end.

End Legacy.
End LegacyController.

(** ** The module with [SteamID] targets *)

Module SteamAPIController.
Section Controller.
Local Open Scope monad_scope.
Context `{pkg : SteamIDPackage}.
Variable axios : Axios.

Definition setApiKey (key : string) (st : State) : State :=
  {| apiKey := key; requests := requests st |}.

(** [new SteamID(input)] *)
Definition new_SteamID (input : string) : Completion SteamID :=
  match parseSteamID input with
  | Some sid => Return sid
  | None => Throw (SteamIDError input)
  end.

Fixpoint SteamIDResolvablesToSteamID64 (targets : list SteamIDResolvable)
  : Completion (list string) :=
  match targets with
  | [] => ret []
  | element :: rest =>
      id <- match element with
            | OfSteamID sid => ret (getSteamID64 sid)
            | OfString s => steamID <- new_SteamID s ;; ret (getSteamID64 steamID)
            end ;;
      ids <- SteamIDResolvablesToSteamID64 rest ;;
      ret (id :: ids)
  end.

Definition GetPlayerSummaries (targets : list SteamIDResolvable)
  : Js (list PlayerSummary) :=
  if (100 <? List.length targets)%nat then raise (ErrorObject tooMany)
  else
    steamIDs <- lift (SteamIDResolvablesToSteamID64 targets) ;;
    key <- readApiKey ;;
    response <- axios_get (summaries axios) (summariesURL key steamIDs) ;;
    ret (match response with
         | Some r => collect (players r)
         | None => []
         end).

(** The deprecated alias. *)
Definition getPlayerSummaries (targets : list SteamIDResolvable)
  : Js (list PlayerSummary) :=
  GetPlayerSummaries targets.

Definition GetPlayerBans (targets : list SteamIDResolvable)
  : Js (list PlayerBans) :=
  if (100 <? List.length targets)%nat then raise (ErrorObject tooMany)
  else
    steamIDs <- lift (SteamIDResolvablesToSteamID64 targets) ;;
    key <- readApiKey ;;
    response <- axios_get (bans axios) (bansURL key steamIDs) ;;
    ret (match response with
         | Some r => collect (bans_players r)
         | None => []
         end).

Definition resolveVanityUrl (vanityName : string) : Js SteamID :=
  key <- readApiKey ;;
  response <- axios_get (vanity axios) (vanityURL key vanityName) ;;
  match response with
  | Some r =>
      (* [if (steamID)]: an absent and an empty string are both falsy *)
      match steamid r with
      | Some (String _ _ as steamID) => lift (new_SteamID steamID)
      | _ => raise (ThrownString "Not a valid SteamID")
      end
  | None => raise (ThrownString "Could not reach the VanityURL API")
  end.

Definition getSteamID (url : string) : Completion SteamID :=
  new_SteamID (resolveURL url).

Definition isValidSteamID (steamIDToCheck : string) : bool :=
  match new_SteamID steamIDToCheck with
  | Return _ => true
  | Throw _ => false
  end.

Definition getSteamIDAsync (steamResolvable : string) : Js SteamID :=
  if isValidSteamID steamResolvable then lift (new_SteamID steamResolvable)
  else
    let steamResolvable := resolveURL steamResolvable in
    steamResolvable <-
      catch (sid <- resolveVanityUrl steamResolvable ;; ret (getSteamID64 sid))
            (fun _ => ret steamResolvable) ;;
    lift (new_SteamID steamResolvable).

End Controller.
End SteamAPIController.

(** ** A sample of the [steamid] package

    Identifiers written as non-empty strings of decimal digits, the form
    the Web API itself returns.  It serves to run the module on concrete
    inputs; the theorems below hold for every package. *)

Module DecimalSteamID.

Definition is_digit (c : ascii) : bool :=
  (48 <=? nat_of_ascii c)%nat && (nat_of_ascii c <=? 57)%nat.

Fixpoint digits_only (s : string) : bool :=
  match s with
  | EmptyString => true
  | String c s' => is_digit c && digits_only s'
  end.

Definition parse (s : string) : option string :=
  match s with
  | EmptyString => None
  | String _ _ => if digits_only s then Some s else None
  end.

Definition package : SteamIDPackage :=
  {| SteamID := string; parseSteamID := parse; getSteamID64 := fun sid => sid |}.

End DecimalSteamID.

(** ** A package that reads vanity URLs

    Its constructor accepts a string exactly when it starts with the
    vanity prefix, and keeps the name that follows.  Nothing in the
    module excludes such a constructor. *)

Module VanityUrlSteamID.

Definition parse (s : string) : option string :=
  Str.strip_prefix "http://steamcommunity.com/id/" s.

Definition package : SteamIDPackage :=
  {| SteamID := string; parseSteamID := parse; getSteamID64 := fun sid => sid |}.

End VanityUrlSteamID.

(** ** Sample remote services *)

Module Samples.

(** Every request is refused. *)
Definition unreachable : Axios :=
  {| summaries := fun _ => Rejected "ECONNREFUSED";
     bans := fun _ => Rejected "ECONNREFUSED";
     vanity := fun _ => Rejected "ECONNREFUSED" |}.

(** The service knows nobody: no vanity name matches, no player is listed. *)
Definition no_match : Axios :=
  {| summaries := fun _ => Resolved (Some {| players := Some [] |});
     bans := fun _ => Resolved (Some {| bans_players := None |});
     vanity := fun _ =>
       Resolved (Some {| success := 42%Z; steamid := None;
                         message := Some "No match" |}) |}.

(** A vanity answer that reports success and carries the given [steamid]. *)
Definition answering (id : string) : Axios :=
  {| summaries := fun _ => Resolved (Some {| players := None |});
     bans := fun _ => Resolved (Some {| bans_players := Some [] |});
     vanity := fun _ =>
       Resolved (Some {| success := 1%Z; steamid := Some id;
                         message := None |}) |}.

End Samples.

(** ** What the prose says about [resolveURL], as relations *)

Module UrlSpec.

(** The strings a pattern [/http[s]{0,1}TAIL/] matches. *)
Definition IsMatch (tail m : string) : Prop :=
  m = "http" ++ tail \/ m = "https" ++ tail.

Definition StartsWithMatch (tail s : string) : Prop :=
  exists m r, IsMatch tail m /\ s = m ++ r.

(** The pattern matches somewhere inside [s], not necessarily at its start. *)
Definition Occurs (tail s : string) : Prop :=
  exists a b, StartsWithMatch tail b /\ s = a ++ b.

(** [s'] is [s] with the leftmost match of the pattern cut out, or [s]
    itself when the pattern matches nowhere. *)
Definition FirstOccurrenceRemoved (tail s s' : string) : Prop :=
  (~ Occurs tail s /\ s' = s) \/
  (exists a m b,
      s = a ++ m ++ b /\ s' = a ++ b /\ IsMatch tail m /\
      forall a1 a2, a = a1 ++ a2 -> a2 <> "" ->
                    ~ StartsWithMatch tail (a2 ++ m ++ b)).

(** [s'] is [s] without its first [c], or [s] itself when it has none. *)
Definition FirstCharRemoved (c : ascii) (s s' : string) : Prop :=
  (Str.count_char c s = 0 /\ s' = s) \/
  (exists u v,
      s = u ++ String c v /\ s' = u ++ v /\ Str.count_char c u = 0).

(** The four prefixes of a profile URL. *)
Definition recognizedPrefixes : list string :=
  [ "http://steamcommunity.com/profiles/";
    "https://steamcommunity.com/profiles/";
    "http://steamcommunity.com/id/";
    "https://steamcommunity.com/id/" ].

(** A profile URL: a recognized prefix, a token without a slash, and
    possibly one closing slash. *)
Definition ProfileURL (url token : string) : Prop :=
  exists prefix slash,
    In prefix recognizedPrefixes /\ In slash [""; "/"] /\
    Str.count_char "/" token = 0 /\ url = prefix ++ token ++ slash.

(** Neither pattern matches anywhere in the string. *)
Definition Unrecognized (url : string) : Prop :=
  Str.regex_test profilesRegex url = false /\
  Str.regex_test customRegex url = false.

End UrlSpec.

(** ** More sample data *)

Module MoreSamples.

Definition gabe : PlayerSummary :=
  {| ps_steamid := "76561197960287930";
     communityvisibilitystate := VISIBLE;
     profilestate := true;
     personaname := "Rabscuttle";
     lastlogoff := 1556305001%Z;
     commentpermission := true;
     profileurl := "https://steamcommunity.com/id/gabelogannewell/";
     avatar := "a.jpg"; avatarmedium := "a_medium.jpg";
     avatarfull := "a_full.jpg";
     personastate := OFFLINE;
     realname := Some "Gabe Newell";
     primaryclanid := None;
     timecreated := Some 1063407589%Z;
     loccountrycode := Some "US";
     locstatecode := Some "WA";
     gameid := None; gameserverip := None;
     gameserversteamid := None; gameextrainfo := None |}.

Definition robin : PlayerSummary :=
  {| ps_steamid := "76561197960265728";
     communityvisibilitystate := NOT_VISIBLE;
     profilestate := false;
     personaname := "robin";
     lastlogoff := 0%Z;
     commentpermission := false;
     profileurl := "https://steamcommunity.com/profiles/76561197960265728/";
     avatar := "b.jpg"; avatarmedium := "b_medium.jpg";
     avatarfull := "b_full.jpg";
     personastate := OFFLINE;
     realname := None; primaryclanid := None; timecreated := None;
     loccountrycode := None; locstatecode := None;
     gameid := None; gameserverip := None;
     gameserversteamid := None; gameextrainfo := None |}.

Definition clean (id : string) : PlayerBans :=
  {| SteamId := id; CommunityBanned := false; VACBanned := false;
     NumberOfVACBans := 0%Z; DaysSinceLastBan := 0%Z;
     NumberOfGameBans := 0%Z; EconomyBan := "none" |}.

(** The service lists the given players and bans for every request. *)
Definition listing (ps : list PlayerSummary) (bs : list PlayerBans) : Axios :=
  {| summaries := fun _ => Resolved (Some {| players := Some ps |});
     bans := fun _ => Resolved (Some {| bans_players := Some bs |});
     vanity := fun _ =>
       Resolved (Some {| success := 42%Z; steamid := None;
                         message := Some "No match" |}) |}.

(** Every request resolves, with nothing. *)
Definition blank : Axios :=
  {| summaries := fun _ => Resolved None;
     bans := fun _ => Resolved None;
     vanity := fun _ => Resolved None |}.

End MoreSamples.

(** The state after one more request. *)
Definition sent (url : string) (st : State) : State :=
  {| apiKey := apiKey st; requests := (requests st ++ [url])%list |}.

(** ** What converting a target means *)

Module ConversionSpec.
Section WithPackage.
Context `{pkg : SteamIDPackage}.

(** [id] is the 64-bit string of [target]: read off a [SteamID] object,
    or off the object the constructor builds from a string. *)
Definition Converts (target : SteamIDResolvable) (id : string) : Prop :=
  match target with
  | OfSteamID sid => id = getSteamID64 sid
  | OfString s =>
      exists sid, parseSteamID s = Some sid /\ id = getSteamID64 sid
  end.

(** The constructor does not throw on this target; an object is never
    handed to the constructor. *)
Definition accepted (target : SteamIDResolvable) : bool :=
  match target with
  | OfSteamID _ => true
  | OfString s =>
      match parseSteamID s with Some _ => true | None => false end
  end.

End WithPackage.
End ConversionSpec.

(** * Properties *)

(** ** Strings *)

Module StrFacts.
Import Str UrlSpec.
#[local] Arguments regex_match_here : simpl never.

Lemma append_nil_r (s : string) : s ++ "" = s.
Proof. induction s as [|c s IH]; simpl; [reflexivity | now rewrite IH]. Qed.

Lemma append_assoc (a b c : string) : (a ++ b) ++ c = a ++ b ++ c.
Proof. induction a as [|x a IH]; simpl; [reflexivity | now rewrite IH]. Qed.

Lemma strip_prefix_Some (p s r : string) :
  strip_prefix p s = Some r -> s = p ++ r.
Proof.
  revert s. induction p as [|c p IH]; intros s H; simpl in *.
  - now inversion H.
  - destruct s as [|d s]; [discriminate|].
    destruct (Ascii.eqb_spec c d) as [->|]; [|discriminate].
    now rewrite (IH _ H).
Qed.

Lemma strip_prefix_append (p r : string) : strip_prefix p (p ++ r) = Some r.
Proof.
  induction p as [|c p IH]; simpl; [reflexivity|].
  now rewrite Ascii.eqb_refl.
Qed.

Lemma count_char_append (c : ascii) (a b : string) :
  count_char c (a ++ b) = count_char c a + count_char c b.
Proof. induction a as [|x a IH]; simpl; [reflexivity | rewrite IH; lia]. Qed.

(** A match found at the head is one of the two strings of the pattern. *)
Lemma match_here_Some (tail s r : string) :
  regex_match_here tail s = Some r -> exists m, IsMatch tail m /\ s = m ++ r.
Proof.
  unfold regex_match_here, IsMatch. intros H.
  destruct (strip_prefix "http" s) as [r0|] eqn:E0; [|discriminate].
  apply strip_prefix_Some in E0. subst s.
  destruct (strip_prefix (String "s" tail) r0) as [r1|] eqn:E1.
  - inversion H; subst r1. apply strip_prefix_Some in E1. subst r0.
    exists ("https" ++ tail). split; [now right | reflexivity].
  - apply strip_prefix_Some in H. subst r0.
    exists ("http" ++ tail). split; [now left | reflexivity].
Qed.

Lemma match_here_None (tail s : string) :
  regex_match_here tail s = None -> ~ StartsWithMatch tail s.
Proof.
  intros H (m & r & [-> | ->] & ->); revert H; unfold regex_match_here.
  - rewrite append_assoc, strip_prefix_append.
    destruct (strip_prefix (String "s" tail) (tail ++ r)); [discriminate|].
    now rewrite strip_prefix_append.
  - change (("https" ++ tail) ++ r) with ("http" ++ (String "s" tail ++ r)).
    now rewrite !strip_prefix_append.
Qed.

Lemma regex_test_eq (tail s : string) :
  regex_test tail s =
  match regex_match_here tail s with
  | Some _ => true
  | None => match s with "" => false | String _ s' => regex_test tail s' end
  end.
Proof. destruct s; reflexivity. Qed.

Lemma regex_replace_first_eq (tail s : string) :
  regex_replace_first tail s =
  match regex_match_here tail s with
  | Some r => r
  | None =>
      match s with
      | "" => ""
      | String c s' => String c (regex_replace_first tail s')
      end
  end.
Proof. destruct s; reflexivity. Qed.

Lemma regex_test_Occurs (tail s : string) :
  regex_test tail s = true <-> Occurs tail s.
Proof.
  split.
  - induction s as [|c s IH]; rewrite regex_test_eq;
      destruct (regex_match_here tail _) as [r|] eqn:E; intros H;
      try discriminate.
    + destruct (match_here_Some _ _ _ E) as (m & Hm & Hs).
      exists "", (String c s). split; [exists m, r; split; assumption | reflexivity].
    + destruct (IH H) as (a & b & Hb & ->).
      now exists (String c a), b.
  - intros (a & b & Hb & ->). induction a as [|c a IH].
    + simpl. rewrite regex_test_eq.
      destruct (regex_match_here tail b) eqn:E; [reflexivity|].
      now elim (match_here_None _ _ E).
    + simpl ((_ ++ _)%string). rewrite regex_test_eq.
      now destruct (regex_match_here tail _).
Qed.

Lemma regex_replace_first_spec (tail s : string) :
  FirstOccurrenceRemoved tail s (regex_replace_first tail s).
Proof.
  induction s as [|c s IH]; rewrite regex_replace_first_eq;
    destruct (regex_match_here tail _) as [r|] eqn:E.
  - right. destruct (match_here_Some _ _ _ E) as (m & Hm & Hs).
    exists "", m, r. repeat split; auto.
    intros [|] a2 Ha Hne; simpl in Ha; [now subst a2 | discriminate].
  - left. split; [|reflexivity].
    intros (a & b & Hb & Hs). destruct a; [|discriminate]. simpl in Hs.
    subst b. now apply (match_here_None _ _ E).
  - right. destruct (match_here_Some _ _ _ E) as (m & Hm & Hs).
    exists "", m, r. repeat split; auto.
    intros [|] a2 Ha Hne; simpl in Ha; [now subst a2 | discriminate].
  - destruct IH as [[Hno ->] | (a & m & b & Hs & -> & Hm & Hleft)].
    + left. split; [|reflexivity].
      intros (a & b & Hb & Hs). destruct a as [|x a]; simpl in Hs.
      * subst b. now apply (match_here_None _ _ E).
      * inversion Hs; subst. apply Hno. now exists a, b.
    + right. exists (String c a), m, b. subst s. repeat split; auto.
      intros [|x a1] a2 Ha Hne; simpl in Ha.
      * subst a2. simpl. now apply match_here_None.
      * inversion Ha; subst. eapply Hleft; eauto.
Qed.

Lemma replace_first_char_spec (c : ascii) (s : string) :
  FirstCharRemoved c s (replace_first_char c s).
Proof.
  induction s as [|d s IH]; simpl.
  - now left.
  - destruct (Ascii.eqb_spec c d) as [->|N].
    + right. exists "", s. repeat split.
    + destruct IH as [[H0 ->] | (u & v & Hs & -> & Hu)].
      * left. split; [simpl|reflexivity].
        destruct (Ascii.eqb_spec c d); [contradiction | exact H0].
      * right. exists (String d u), v. subst s. simpl.
        destruct (Ascii.eqb_spec c d); [contradiction|]. auto.
Qed.

Lemma replace_first_char_count (c : ascii) (s : string) :
  count_char c (replace_first_char c s) = pred (count_char c s).
Proof.
  induction s as [|d s IH]; simpl; [reflexivity|].
  destruct (Ascii.eqb_spec c d) as [->|N]; simpl.
  - reflexivity.
  - destruct (Ascii.eqb_spec c d); [contradiction|]. simpl. exact IH.
Qed.

Lemma replace_first_char_absent (c : ascii) (s : string) :
  count_char c s = 0 -> replace_first_char c s = s.
Proof.
  induction s as [|d s IH]; simpl; [reflexivity|].
  destruct (Ascii.eqb c d); [discriminate|]. intros H. now rewrite IH.
Qed.

Lemma replace_first_char_last (c : ascii) (s : string) :
  count_char c s = 0 -> replace_first_char c (s ++ String c "") = s.
Proof.
  induction s as [|d s IH]; simpl.
  - now rewrite Ascii.eqb_refl.
  - destruct (Ascii.eqb c d); [discriminate|]. intros H. now rewrite IH.
Qed.

End StrFacts.

(** ** [resolveURL] *)

Module ResolveURL.
Import Str UrlSpec StrFacts.
#[local] Arguments regex_match_here : simpl never.

(** Both patterns contain four slashes, so a match needs four of them. *)
Lemma match_needs_four_slashes (tail s r : string) :
  tail = profilesRegex \/ tail = customRegex ->
  regex_match_here tail s = Some r -> 4 <= count_char "/" s.
Proof.
  intros Ht E. destruct (match_here_Some _ _ _ E) as (m & Hm & ->).
  rewrite count_char_append.
  destruct Ht as [-> | ->], Hm as [-> | ->]; simpl; lia.
Qed.

Lemma few_slashes_no_match (tail s : string) :
  tail = profilesRegex \/ tail = customRegex ->
  count_char "/" s < 4 -> regex_test tail s = false.
Proof.
  intros Ht. induction s as [|c s IH]; intros H; rewrite regex_test_eq;
    destruct (regex_match_here tail _) as [r|] eqn:E; try reflexivity.
  - apply (match_needs_four_slashes _ _ _ Ht) in E. lia.
  - apply (match_needs_four_slashes _ _ _ Ht) in E. lia.
  - apply IH. simpl in H. lia.
Qed.

Lemma few_slashes_unchanged (tail s : string) :
  tail = profilesRegex \/ tail = customRegex ->
  count_char "/" s < 4 -> regex_replace_first tail s = s.
Proof.
  intros Ht. induction s as [|c s IH]; intros H;
    rewrite regex_replace_first_eq;
    destruct (regex_match_here tail _) as [r|] eqn:E; try reflexivity.
  - apply (match_needs_four_slashes _ _ _ Ht) in E. lia.
  - apply (match_needs_four_slashes _ _ _ Ht) in E. lia.
  - rewrite IH; [reflexivity|]. simpl in H. lia.
Qed.

Lemma resolveURL_unrecognized (url : string) :
  Unrecognized url -> resolveURL url = url.
Proof. intros [Hp Hc]. unfold resolveURL. now rewrite Hp, Hc. Qed.

Lemma resolveURL_few_slashes (s : string) :
  count_char "/" s < 4 -> resolveURL s = s.
Proof.
  intros H. apply resolveURL_unrecognized.
  split; apply few_slashes_no_match; auto.
Qed.

(** What is left of a profile URL once its prefix is gone. *)
Lemma bare_rest (token slash : string) :
  In slash [""; "/"] -> count_char "/" token = 0 ->
  count_char "/" (token ++ slash) < 4 /\
  replace_first_char "/" (token ++ slash) = token.
Proof.
  intros [<- | [<- | []]] H0; rewrite count_char_append, H0; simpl;
    (split; [lia|]).
  - rewrite append_nil_r. now apply replace_first_char_absent.
  - now apply replace_first_char_last.
Qed.

Lemma resolveURL_profiles_prefix (prefix rest : string) :
  prefix = "http://steamcommunity.com/profiles/" \/
  prefix = "https://steamcommunity.com/profiles/" ->
  count_char "/" rest < 4 ->
  resolveURL (prefix ++ rest) = replace_first_char "/" rest.
Proof.
  intros Hp Hrest. unfold resolveURL.
  assert (E : regex_match_here profilesRegex (prefix ++ rest) = Some rest)
    by (destruct Hp as [-> | ->]; reflexivity).
  rewrite regex_test_eq, (regex_replace_first_eq profilesRegex), E. simpl.
  now rewrite few_slashes_unchanged by auto.
Qed.

Lemma resolveURL_custom_prefix (prefix rest : string) :
  prefix = "http://steamcommunity.com/id/" \/
  prefix = "https://steamcommunity.com/id/" ->
  count_char "/" rest < 4 ->
  resolveURL (prefix ++ rest) = replace_first_char "/" rest.
Proof.
  intros Hp Hrest. unfold resolveURL.
  assert (E : regex_match_here customRegex (prefix ++ rest) = Some rest)
    by (destruct Hp as [-> | ->]; reflexivity).
  assert (S : regex_replace_first profilesRegex (prefix ++ rest)
              = prefix ++ regex_replace_first profilesRegex rest)
    by (destruct Hp as [-> | ->]; reflexivity).
  rewrite (regex_test_eq customRegex), E, orb_true_r, S.
  rewrite (few_slashes_unchanged profilesRegex) by auto.
  now rewrite regex_replace_first_eq, E.
Qed.

Lemma resolveURL_ProfileURL (url token : string) :
  ProfileURL url token -> resolveURL url = token.
Proof.
  intros (prefix & slash & Hp & Hs & H0 & ->).
  destruct (bare_rest _ _ Hs H0) as [Hlt Hcut].
  simpl in Hp. destruct Hp as [<- | [<- | [<- | [<- | []]]]].
  - rewrite resolveURL_profiles_prefix; auto.
  - rewrite resolveURL_profiles_prefix; auto.
  - rewrite resolveURL_custom_prefix; auto.
  - rewrite resolveURL_custom_prefix; auto.
Qed.

(** C3 (as amended): on a profile URL, that is a recognized prefix, a token
    without a slash and at most one closing slash, [resolveURL] returns
    the bare token; a string that neither pattern matches is returned as
    it is; and on both kinds of input a second application changes
    nothing. *)
Theorem resolveURL_normalizes (url : string) :
  (exists token, ProfileURL url token) \/ Unrecognized url ->
  resolveURL (resolveURL url) = resolveURL url /\
  (forall token, ProfileURL url token -> resolveURL url = token) /\
  (Unrecognized url -> resolveURL url = url).
Proof.
  intros H. split; [|split].
  - destruct H as [[token Hu] | Hu].
    + rewrite (resolveURL_ProfileURL _ _ Hu).
      destruct Hu as (_ & _ & _ & _ & H0 & _).
      apply resolveURL_few_slashes. lia.
    + now rewrite !(resolveURL_unrecognized _ Hu).
  - apply resolveURL_ProfileURL.
  - apply resolveURL_unrecognized.
Qed.

(** Scenario B of the specification. *)
Lemma resolveURL_normalizes_witness :
  resolveURL "https://steamcommunity.com/profiles/76561197960287930/"
  = "76561197960287930".
Proof.
  refine (proj1 (proj2 (resolveURL_normalizes _ _)) _ _).
  - left. exists "76561197960287930".
    exists "https://steamcommunity.com/profiles/", "/".
    simpl. intuition.
  - exists "https://steamcommunity.com/profiles/", "/".
    simpl. intuition.
Defined.

(** C3 (as stated) fails: a URL prefix nested behind a slash survives the
    first application and is stripped by the second. *)
Lemma resolveURL_not_idempotent :
  let x := "http://steamcommunity.com/id//http://steamcommunity.com/id/x" in
  resolveURL x = "http://steamcommunity.com/id/x" /\
  resolveURL (resolveURL x) = "x" /\
  resolveURL (resolveURL x) <> resolveURL x.
Proof. repeat split. discriminate. Qed.

(** C10: the patterns are searched anywhere in the input.  When one of
    them occurs, the result is obtained by cutting out the leftmost match
    of the profiles pattern, then the leftmost match of the vanity pattern,
    then the first slash of what remains, wherever it stands; every other
    slash of the remainder is kept. *)
Theorem resolveURL_unanchored (url : string) :
  Occurs profilesRegex url \/ Occurs customRegex url ->
  exists s1 s2,
    FirstOccurrenceRemoved profilesRegex url s1 /\
    FirstOccurrenceRemoved customRegex s1 s2 /\
    FirstCharRemoved "/" s2 (resolveURL url) /\
    count_char "/" (resolveURL url) = pred (count_char "/" s2).
Proof.
  intros H.
  assert (T : regex_test profilesRegex url || regex_test customRegex url = true).
  { apply orb_true_iff. destruct H as [H | H]; [left | right];
      now apply regex_test_Occurs. }
  unfold resolveURL. rewrite T.
  exists (regex_replace_first profilesRegex url).
  exists (regex_replace_first customRegex
            (regex_replace_first profilesRegex url)).
  repeat split.
  - apply regex_replace_first_spec.
  - apply regex_replace_first_spec.
  - apply replace_first_char_spec.
  - apply replace_first_char_count.
Qed.

(** A prefix in the middle of the input, and a remainder with three
    slashes of which the last two survive. *)
Lemma resolveURL_unanchored_witness :
  exists s1 s2,
    FirstOccurrenceRemoved profilesRegex
      "see http://steamcommunity.com/id/a/b/c/" s1 /\
    FirstOccurrenceRemoved customRegex s1 s2 /\
    FirstCharRemoved "/" s2
      (resolveURL "see http://steamcommunity.com/id/a/b/c/") /\
    count_char "/" (resolveURL "see http://steamcommunity.com/id/a/b/c/")
    = pred (count_char "/" s2).
Proof.
  apply resolveURL_unanchored. right.
  exists "see ", "http://steamcommunity.com/id/a/b/c/". split; [|reflexivity].
  exists "http://steamcommunity.com/id/", "a/b/c/". split; [now left | reflexivity].
Defined.

Example resolveURL_middle :
  resolveURL "see http://steamcommunity.com/id/a/b/c/" = "see ab/c/".
Proof. reflexivity. Qed.

End ResolveURL.

(** ** The resolver *)

Module Resolver.
Import SteamAPIController.

Section WithPackage.
Context `{pkg : SteamIDPackage}.
Variable axios : Axios.

Lemma isValidSteamID_true (s : string) :
  isValidSteamID s = true -> exists sid, parseSteamID s = Some sid.
Proof.
  unfold isValidSteamID, new_SteamID.
  destruct (parseSteamID s) as [sid|]; [now exists sid | discriminate].
Qed.

Lemma new_SteamID_None (s : string) :
  parseSteamID s = None -> new_SteamID s = Throw (SteamIDError s).
Proof. unfold new_SteamID. now intros ->. Qed.

Lemma new_SteamID_Some (s : string) (sid : SteamID) :
  parseSteamID s = Some sid -> new_SteamID s = Return sid.
Proof. unfold new_SteamID. now intros ->. Qed.

(** The constructor only ever throws its own error. *)
Lemma new_SteamID_throws (s : string) (e : Thrown) :
  new_SteamID s = Throw e -> e = SteamIDError s.
Proof.
  unfold new_SteamID. destruct (parseSteamID s); intros H; now inversion H.
Qed.

(** Past the validity test, the resolver is the vanity lookup with its
    failure replaced by the normalized input, followed by construction. *)
Lemma getSteamIDAsync_invalid (s : string) (st : State) :
  isValidSteamID s = false ->
  getSteamIDAsync axios s st =
  match resolveVanityUrl axios (resolveURL s) st with
  | (Return sid, st') => (new_SteamID (getSteamID64 sid), st')
  | (Throw _, st') => (new_SteamID (resolveURL s), st')
  end.
Proof.
  intros H. unfold getSteamIDAsync. rewrite H. simpl.
  destruct (resolveVanityUrl axios (resolveURL s) st) as [[sid|e] st'];
    reflexivity.
Qed.

(** On an accepted string the resolver is the constructor and nothing else. *)
Lemma valid_resolves_locally (s : string) (sid : SteamID) (st : State) :
  parseSteamID s = Some sid ->
  getSteamIDAsync axios s st = (Return sid, st).
Proof.
  intros Hsid. unfold getSteamIDAsync, isValidSteamID, lift.
  now rewrite (new_SteamID_Some _ _ Hsid).
Qed.

(** C1: on a string that [isValidSteamID] accepts, [getSteamIDAsync]
    returns the identifier constructed from that very string and leaves
    the request log as it found it: nothing was sent, whatever the remote
    service would have answered. *)
Theorem getSteamIDAsync_valid_is_local (s : string) (st : State) :
  isValidSteamID s = true ->
  exists sid,
    parseSteamID s = Some sid /\
    getSteamIDAsync axios s st = (Return sid, st).
Proof.
  intros H. destruct (isValidSteamID_true _ H) as [sid Hsid].
  exists sid. split; [exact Hsid | now apply valid_resolves_locally].
Qed.

(** C2: whatever the input, an error of [getSteamIDAsync] is an error of
    the [SteamID] constructor, never one of the remote lookup; and when
    the lookup on the normalized input fails, for whatever reason, the
    resolver answers with the construction of the normalized input. *)
Theorem getSteamIDAsync_swallows_remote_failure (s : string) (st : State) :
  (forall e, fst (getSteamIDAsync axios s st) = Throw e ->
             exists input, e = SteamIDError input) /\
  (isValidSteamID s = false ->
   forall e st', resolveVanityUrl axios (resolveURL s) st = (Throw e, st') ->
   getSteamIDAsync axios s st = (new_SteamID (resolveURL s), st')).
Proof.
  split.
  - destruct (isValidSteamID s) eqn:V.
    + destruct (isValidSteamID_true _ V) as [sid Hsid].
      rewrite (valid_resolves_locally _ _ st Hsid). discriminate.
    + rewrite (getSteamIDAsync_invalid _ _ V).
      destruct (resolveVanityUrl axios (resolveURL s) st) as [[sid|e0] st'];
        simpl; intros e He; apply new_SteamID_throws in He; eauto.
  - intros V e st' H. now rewrite (getSteamIDAsync_invalid _ _ V), H.
Qed.

(** C4: an input that is not a valid identifier, whose normalized form the
    vanity lookup fails on and the constructor rejects, ends in the
    constructor's error for that normalized form. *)
Theorem getSteamIDAsync_parse_error
    (s : string) (st st' : State) (e : Thrown) :
  isValidSteamID s = false ->
  resolveVanityUrl axios (resolveURL s) st = (Throw e, st') ->
  parseSteamID (resolveURL s) = None ->
  getSteamIDAsync axios s st = (Throw (SteamIDError (resolveURL s)), st').
Proof.
  intros V H N.
  now rewrite (getSteamIDAsync_invalid _ _ V), H, (new_SteamID_None _ N).
Qed.

(** For a package that accepts no string in which a profile-URL pattern
    occurs, normalization never touches a valid string. *)
Lemma round_trip_if_urls_rejected (s : string) :
  (forall u, Str.regex_test profilesRegex u || Str.regex_test customRegex u = true ->
             parseSteamID u = None) ->
  isValidSteamID s = true ->
  exists sid, getSteamID s = Return sid.
Proof.
  intros Hurl V. destruct (isValidSteamID_true _ V) as [sid Hsid].
  exists sid. unfold getSteamID, resolveURL.
  destruct (Str.regex_test profilesRegex s || Str.regex_test customRegex s) eqn:T.
  - rewrite (Hurl _ T) in Hsid. discriminate.
  - now apply new_SteamID_Some.
Qed.



(** What the vanity lookup sends, and that it always sends it. *)
Lemma resolveVanityUrl_state (name : string) (st : State) :
  snd (resolveVanityUrl axios name st) =
  {| apiKey := apiKey st;
     requests := requests st ++ [vanityURL (apiKey st) name] |}.
Proof.
  unfold resolveVanityUrl, axios_get, readApiKey. simpl.
  destruct (vanity axios _) as [reason | [r|]]; simpl; try reflexivity.
  destruct (steamid r) as [[|c id]|]; reflexivity.
Qed.

(** C9 (as amended): once the request has resolved with a response, the
    outcome depends on the [steamid] member alone, whatever [success] and
    [message] hold.  A non-empty [steamid] is handed to the constructor,
    whose result is the result (the module of [src/index.ts] returns the
    string itself); an absent or empty one makes both throw
    ['Not a valid SteamID']. *)
Theorem resolveVanityUrl_decided_by_steamid
    (name : string) (st : State) (r : VanityURLResponse) :
  vanity axios (vanityURL (apiKey st) name) = Resolved (Some r) ->
  (forall id, steamid r = Some id -> id <> "" ->
     fst (resolveVanityUrl axios name st) = new_SteamID id /\
     fst (LegacyController.resolveVanityUrl axios name st) = Return id) /\
  (steamid r = None \/ steamid r = Some "" ->
     fst (resolveVanityUrl axios name st)
       = Throw (ThrownString "Not a valid SteamID") /\
     fst (LegacyController.resolveVanityUrl axios name st)
       = Throw (ThrownString "Not a valid SteamID")).
Proof.
  intros H.
  unfold resolveVanityUrl, LegacyController.resolveVanityUrl,
    axios_get, readApiKey.
  simpl. rewrite H. simpl. split.
  - intros id -> Hne. destruct id as [|c id]; [now elim Hne|]. now split.
  - intros [-> | ->]; now split.
Qed.

End WithPackage.

(** The sample package accepts digits only, hence nothing that contains
    the [h] of a URL scheme. *)
Lemma decimal_digits (s : string) (sid : string) :
  DecimalSteamID.parse s = Some sid -> DecimalSteamID.digits_only s = true.
Proof.
  unfold DecimalSteamID.parse. destruct s; [discriminate|].
  now destruct (DecimalSteamID.digits_only _).
Qed.

Lemma digits_no_match (tail s : string) :
  DecimalSteamID.digits_only s = true -> Str.regex_test tail s = false.
Proof.
  induction s as [|c s IH]; intros D; rewrite StrFacts.regex_test_eq;
    destruct (Str.regex_match_here tail _) as [r|] eqn:E; try reflexivity.
  - discriminate E.
  - destruct (StrFacts.match_here_Some _ _ _ E) as (m & [-> | ->] & Hs);
      inversion Hs; subst; discriminate.
  - apply IH. simpl in D. now apply andb_true_iff in D.
Qed.

Lemma decimal_rejects_urls (u : string) :
  Str.regex_test profilesRegex u || Str.regex_test customRegex u = true ->
  DecimalSteamID.parse u = None.
Proof.
  intros T. destruct (DecimalSteamID.parse u) as [sid|] eqn:P; [|reflexivity].
  apply decimal_digits in P.
  now rewrite !(digits_no_match _ _ P) in T.
Qed.

(** Scenario A of the specification. *)
Lemma getSteamIDAsync_valid_is_local_witness :
  exists sid,
    DecimalSteamID.parse "76561197960287930" = Some sid /\
    @getSteamIDAsync DecimalSteamID.package Samples.unreachable
      "76561197960287930" initial = (Return sid, initial).
Proof.
  apply (@getSteamIDAsync_valid_is_local
           DecimalSteamID.package Samples.unreachable).
  reflexivity.
Defined.

(** The service cannot be reached: the caller sees the constructor's
    error on ["coolname"], and the request that was tried in the log. *)
Lemma getSteamIDAsync_swallows_remote_failure_witness :
  @getSteamIDAsync DecimalSteamID.package Samples.unreachable
    "http://steamcommunity.com/id/coolname/" initial
  = (Throw (SteamIDError "coolname"),
     {| apiKey := ""; requests := [vanityURL "" "coolname"] |}).
Proof.
  refine (proj2 (@getSteamIDAsync_swallows_remote_failure
                   DecimalSteamID.package Samples.unreachable
                   "http://steamcommunity.com/id/coolname/" initial)
                _ (AxiosError "ECONNREFUSED") _ _); reflexivity.
Defined.

(** Scenario D of the specification. *)
Lemma getSteamIDAsync_parse_error_witness :
  @getSteamIDAsync DecimalSteamID.package Samples.no_match "coolname" initial
  = (Throw (SteamIDError "coolname"),
     {| apiKey := ""; requests := [vanityURL "" "coolname"] |}).
Proof.
  apply (@getSteamIDAsync_parse_error DecimalSteamID.package Samples.no_match
           "coolname" initial _ (ThrownString "Not a valid SteamID"));
    reflexivity.
Defined.



(** The sample package is one for which the round trip is unconditional. *)
Lemma decimal_round_trip (s : string) :
  @isValidSteamID DecimalSteamID.package s = true ->
  exists sid, @getSteamID DecimalSteamID.package s = Return sid.
Proof.
  apply (@round_trip_if_urls_rejected DecimalSteamID.package).
  exact decimal_rejects_urls.
Qed.

(** Scenario C of the specification: the answer carries an identifier. *)
Lemma resolveVanityUrl_decided_by_steamid_witness :
  fst (@resolveVanityUrl DecimalSteamID.package
         (Samples.answering "76561197960287930") "coolname" initial)
  = Return "76561197960287930" /\
  fst (LegacyController.resolveVanityUrl
         (Samples.answering "76561197960287930") "coolname" initial)
  = Return "76561197960287930".
Proof.
  refine (proj1 (@resolveVanityUrl_decided_by_steamid
                   DecimalSteamID.package
                   (Samples.answering "76561197960287930")
                   "coolname" initial
                   {| success := 1%Z; steamid := Some "76561197960287930";
                      message := None |} _)
                "76561197960287930" _ _);
    [reflexivity | reflexivity | discriminate].
Defined.

(** C9 (as stated) fails: the answer reports success and has a [steamid]
    member, yet the lookup throws, with ['Not a valid SteamID'] when the
    member is the empty string and with the constructor's error when the
    constructor rejects it. *)
Lemma resolveVanityUrl_steamid_present_yet_throws :
  (exists r,
     vanity (Samples.answering "") (vanityURL "" "coolname")
       = Resolved (Some r) /\
     steamid r = Some "" /\ success r = 1%Z) /\
  fst (@resolveVanityUrl DecimalSteamID.package
         (Samples.answering "") "coolname" initial)
  = Throw (ThrownString "Not a valid SteamID") /\
  fst (LegacyController.resolveVanityUrl
         (Samples.answering "") "coolname" initial)
  = Throw (ThrownString "Not a valid SteamID") /\
  fst (@resolveVanityUrl DecimalSteamID.package
         (Samples.answering "STEAM_9:9:9") "coolname" initial)
  = Throw (SteamIDError "STEAM_9:9:9").
Proof.
  repeat split. eexists. repeat split.
Qed.

End Resolver.

(** ** The bulk fetchers and the key slot *)

Module BulkFetch.
Import SteamAPIController.

Lemma push_all_app {A} (l acc : list A) : push_all l acc = (acc ++ l)%list.
Proof.
  unfold push_all. revert acc. induction l as [|x l IH]; intros acc; simpl.
  - now rewrite app_nil_r.
  - rewrite IH, <- app_assoc. reflexivity.
Qed.

(** The copy loop returns the entries in the order received. *)
Lemma collect_Some {A} (l : list A) : collect (Some l) = l.
Proof. destruct l; [reflexivity|]. unfold collect. apply push_all_app. Qed.

Lemma collect_NoEntries {A} (o : option (list A)) :
  NoEntries o -> collect o = [].
Proof. now intros [-> | ->]. Qed.

Section WithPackage.
Context `{pkg : SteamIDPackage}.
Variable axios : Axios.

Lemma not_too_many {A} (targets : list A) :
  List.length targets <= 100 -> (100 <? List.length targets)%nat = false.
Proof. intros H. apply Nat.ltb_ge. exact H. Qed.

Lemma over_limit (targets : list SteamIDResolvable) (st : State) :
  100 < List.length targets ->
  GetPlayerSummaries axios targets st = (Throw (ErrorObject tooMany), st) /\
  GetPlayerBans axios targets st = (Throw (ErrorObject tooMany), st).
Proof.
  intros H. apply Nat.ltb_lt in H. unfold GetPlayerSummaries, GetPlayerBans.
  rewrite H. now split.
Qed.

(** C5: with more than 100 targets both bulk fetchers, and the
    deprecated alias, throw the "only 100" error at once: the targets are
    not looked at, so it does not matter whether they could be converted,
    and the request log is left as found. *)
Theorem bulk_fetch_too_many (targets : list SteamIDResolvable) (st : State) :
  100 < List.length targets ->
  GetPlayerSummaries axios targets st = (Throw (ErrorObject tooMany), st) /\
  getPlayerSummaries axios targets st = (Throw (ErrorObject tooMany), st) /\
  GetPlayerBans axios targets st = (Throw (ErrorObject tooMany), st).
Proof.
  intros H. destruct (over_limit targets st H) as [Hs Hb].
  unfold getPlayerSummaries. now rewrite Hs, Hb.
Qed.

(** C7: when the request of a bulk fetcher resolves with a response
    whose [players] member is absent or empty, the fetcher returns the
    empty array.  The same holds for the fetcher of [src/index.ts]. *)
Theorem bulk_fetch_no_entries
    (targets : list SteamIDResolvable) (ids : list string) (st : State) :
  List.length targets <= 100 ->
  SteamIDResolvablesToSteamID64 targets = Return ids ->
  (forall r, summaries axios (summariesURL (apiKey st) ids) = Resolved (Some r) ->
             NoEntries (players r) ->
             fst (GetPlayerSummaries axios targets st) = Return []) /\
  (forall r, bans axios (bansURL (apiKey st) ids) = Resolved (Some r) ->
             NoEntries (bans_players r) ->
             fst (GetPlayerBans axios targets st) = Return []) /\
  (forall r, List.length ids <= 100 ->
             summaries axios (summariesURL (apiKey st) ids) = Resolved (Some r) ->
             NoEntries (players r) ->
             fst (LegacyController.getPlayerSummaries axios ids st) = Return []).
Proof.
  intros Hlen Hids. repeat split; intros r.
  - intros Hr Hno. unfold GetPlayerSummaries.
    rewrite (not_too_many _ Hlen). unfold lift, axios_get, readApiKey. simpl.
    rewrite Hids, Hr. simpl. now rewrite (collect_NoEntries _ Hno).
  - intros Hr Hno. unfold GetPlayerBans.
    rewrite (not_too_many _ Hlen). unfold lift, axios_get, readApiKey. simpl.
    rewrite Hids, Hr. simpl. now rewrite (collect_NoEntries _ Hno).
  - intros Hl Hr Hno. unfold LegacyController.getPlayerSummaries.
    rewrite (not_too_many _ Hl). unfold axios_get, readApiKey. simpl.
    rewrite Hr. simpl. now rewrite (collect_NoEntries _ Hno).
Qed.

Lemma bulk_state (targets : list SteamIDResolvable) (ids : list string)
    (st : State) :
  List.length targets <= 100 ->
  SteamIDResolvablesToSteamID64 targets = Return ids ->
  snd (GetPlayerSummaries axios targets st) =
    {| apiKey := apiKey st;
       requests := requests st ++ [summariesURL (apiKey st) ids] |} /\
  snd (GetPlayerBans axios targets st) =
    {| apiKey := apiKey st;
       requests := requests st ++ [bansURL (apiKey st) ids] |}.
Proof.
  intros Hlen Hids. unfold GetPlayerSummaries, GetPlayerBans.
  rewrite (not_too_many _ Hlen). unfold lift, axios_get, readApiKey. simpl.
  rewrite Hids. split.
  - now destruct (summaries axios _).
  - now destruct (bans axios _).
Qed.

(** No operation of the module writes the slot. *)
Lemma bulk_keeps_key (targets : list SteamIDResolvable) (st : State) :
  apiKey (snd (GetPlayerSummaries axios targets st)) = apiKey st /\
  apiKey (snd (GetPlayerBans axios targets st)) = apiKey st.
Proof.
  destruct (Nat.lt_ge_cases 100 (List.length targets)) as [H | H].
  - destruct (over_limit targets st H) as [-> ->]. now split.
  - destruct (SteamIDResolvablesToSteamID64 targets) as [ids|e] eqn:E.
    + destruct (bulk_state _ _ st H E) as [-> ->]. now split.
    + unfold GetPlayerSummaries, GetPlayerBans.
      rewrite (not_too_many _ H). unfold lift. simpl. rewrite E. now split.
Qed.

Lemma resolver_keeps_key (s : string) (st : State) :
  apiKey (snd (getSteamIDAsync axios s st)) = apiKey st.
Proof.
  destruct (isValidSteamID s) eqn:V.
  - destruct (Resolver.isValidSteamID_true _ V) as [sid Hsid].
    now rewrite (Resolver.valid_resolves_locally axios _ _ st Hsid).
  - rewrite (Resolver.getSteamIDAsync_invalid axios _ _ V).
    pose proof (Resolver.resolveVanityUrl_state axios (resolveURL s) st) as H.
    destruct (resolveVanityUrl axios (resolveURL s) st) as [[sid|e] st'];
      simpl in *; now subst st'.
Qed.

(** C8: the key lives in one slot of the module state.  The slot starts
    out as the empty string; [setApiKey] stores whatever string it is
    given and touches nothing else; no other operation writes the slot;
    and each request URL is built around the slot's current content. *)
Theorem apiKey_slot :
  apiKey initial = "" /\
  (forall key st,
     setApiKey key st = {| apiKey := key; requests := requests st |} /\
     LegacyController.setApiKey key st = setApiKey key st) /\
  (forall targets s st,
     apiKey (snd (GetPlayerSummaries axios targets st)) = apiKey st /\
     apiKey (snd (GetPlayerBans axios targets st)) = apiKey st /\
     apiKey (snd (resolveVanityUrl axios s st)) = apiKey st /\
     apiKey (snd (getSteamIDAsync axios s st)) = apiKey st) /\
  (forall name st,
     requests (snd (resolveVanityUrl axios name st))
     = (requests st ++
        [("http://api.steampowered.com/ISteamUser/ResolveVanityURL/v0001/?key="
            ++ apiKey st ++ "&vanityurl=" ++ name)%string])%list) /\
  (forall targets ids st,
     List.length targets <= 100 ->
     SteamIDResolvablesToSteamID64 targets = Return ids ->
     requests (snd (GetPlayerSummaries axios targets st))
     = (requests st ++
        [("http://api.steampowered.com/ISteamUser/GetPlayerSummaries/v0002/?key="
            ++ apiKey st ++ "&steamids=" ++ String.concat "," ids)%string])%list /\
     requests (snd (GetPlayerBans axios targets st))
     = (requests st ++
        [("http://api.steampowered.com/ISteamUser/GetPlayerBans/v1/?key="
            ++ apiKey st ++ "&steamids=" ++ String.concat "," ids)%string])%list).
Proof.
  split; [reflexivity|]. split; [now split|]. split; [|split].
  - intros targets s st.
    destruct (bulk_keeps_key targets st) as [-> ->].
    rewrite Resolver.resolveVanityUrl_state, resolver_keeps_key. now repeat split.
  - intros name st. now rewrite Resolver.resolveVanityUrl_state.
  - intros targets ids st Hlen Hids.
    destruct (bulk_state _ _ st Hlen Hids) as [-> ->]. now split.
Qed.

End WithPackage.

(** 101 targets, none of them convertible: the count is what is reported. *)
Lemma bulk_fetch_too_many_witness :
  let targets := repeat (@OfString DecimalSteamID.package "nobody") 101 in
  GetPlayerSummaries Samples.no_match targets initial
    = (Throw (ErrorObject tooMany), initial) /\
  getPlayerSummaries Samples.no_match targets initial
    = (Throw (ErrorObject tooMany), initial) /\
  GetPlayerBans Samples.no_match targets initial
    = (Throw (ErrorObject tooMany), initial).
Proof.
  apply (@bulk_fetch_too_many DecimalSteamID.package Samples.no_match).
  rewrite repeat_length. lia.
Defined.

(** Scenario F of the specification. *)
Lemma bulk_fetch_no_entries_witness :
  let id := "76561197960287930" in
  fst (GetPlayerSummaries Samples.no_match
         [@OfString DecimalSteamID.package id] initial) = Return [] /\
  fst (GetPlayerBans Samples.no_match
         [@OfString DecimalSteamID.package id] initial) = Return [] /\
  fst (LegacyController.getPlayerSummaries Samples.no_match [id] initial)
  = Return [].
Proof.
  intros id.
  destruct (@bulk_fetch_no_entries DecimalSteamID.package Samples.no_match
              [@OfString DecimalSteamID.package id] [id] initial)
    as (H1 & H2 & H3); [simpl; lia | reflexivity |].
  split; [|split].
  - apply (H1 {| players := Some [] |}); [reflexivity | now right].
  - apply (H2 {| bans_players := None |}); [reflexivity | now left].
  - apply (H3 {| players := Some [] |}); [simpl; lia | reflexivity | now right].
Defined.

(** A key is set, then one summary is requested. *)
Lemma apiKey_slot_witness :
  requests (snd (GetPlayerSummaries Samples.no_match
                   [@OfString DecimalSteamID.package "76561197960287930"]
                   (setApiKey "0123ABCD" initial)))
  = ["http://api.steampowered.com/ISteamUser/GetPlayerSummaries/v0002/?key=0123ABCD&steamids=76561197960287930"].
Proof.
  refine (proj1 (proj2 (proj2 (proj2 (proj2
            (@apiKey_slot DecimalSteamID.package Samples.no_match))))
            [@OfString DecimalSteamID.package "76561197960287930"]
            ["76561197960287930"] (setApiKey "0123ABCD" initial) _ _));
    [simpl; lia | reflexivity].
Defined.

End BulkFetch.

(** ** Converting the targets *)

Module Conversion.
Import SteamAPIController ConversionSpec.

Section WithPackage.
Context `{pkg : SteamIDPackage}.

Lemma convert_cons (target : SteamIDResolvable)
    (rest : list SteamIDResolvable) :
  SteamIDResolvablesToSteamID64 (target :: rest) =
  match target with
  | OfSteamID sid =>
      match SteamIDResolvablesToSteamID64 rest with
      | Return ids => Return (getSteamID64 sid :: ids)
      | Throw e => Throw e
      end
  | OfString s =>
      match parseSteamID s with
      | Some sid =>
          match SteamIDResolvablesToSteamID64 rest with
          | Return ids => Return (getSteamID64 sid :: ids)
          | Throw e => Throw e
          end
      | None => Throw (SteamIDError s)
      end
  end.
Proof.
  destruct target as [s|sid]; simpl; unfold new_SteamID.
  - destruct (parseSteamID s); simpl; [|reflexivity].
    now destruct (SteamIDResolvablesToSteamID64 rest).
  - now destruct (SteamIDResolvablesToSteamID64 rest).
Qed.

(** X1: the conversion returns [ids] exactly when [ids] lists, target by
    target and in the same order, the 64-bit string of each target; in
    particular as many strings as there are targets. *)
Theorem conversion_pointwise
    (targets : list SteamIDResolvable) (ids : list string) :
  SteamIDResolvablesToSteamID64 targets = Return ids <->
  Forall2 Converts targets ids.
Proof.
  revert ids. induction targets as [|t rest IH]; intros ids.
  - simpl. split.
    + intros H. inversion H. constructor.
    + intros H. now inversion H.
  - rewrite convert_cons. split.
    + destruct t as [s|sid].
      * destruct (parseSteamID s) as [sid|] eqn:P; [|discriminate].
        destruct (SteamIDResolvablesToSteamID64 rest) as [ids'|];
          [|discriminate].
        intros H. inversion H. constructor; [now exists sid | now apply IH].
      * destruct (SteamIDResolvablesToSteamID64 rest) as [ids'|];
          [|discriminate].
        intros H. inversion H. constructor; [reflexivity | now apply IH].
    + intros H. inversion H as [|t' id rest' ids' Hc Hrest]; subst.
      apply IH in Hrest. rewrite Hrest.
      destruct t as [s|sid]; simpl in Hc.
      * destruct Hc as (sid & -> & ->). reflexivity.
      * now subst id.
Qed.

(** X2: the conversion throws exactly when some string target is
    rejected by the constructor, and what it throws is the constructor's
    error on the first such target; the targets after it are not looked
    at. *)
Theorem conversion_first_rejected
    (targets : list SteamIDResolvable) (e : Thrown) :
  SteamIDResolvablesToSteamID64 targets = Throw e <->
  exists before s after,
    targets = (before ++ OfString s :: after)%list /\
    forallb accepted before = true /\
    parseSteamID s = None /\
    e = SteamIDError s.
Proof.
  induction targets as [|t rest IH].
  - simpl. split; [discriminate|].
    intros (before & s & after & H & _). now destruct before.
  - rewrite convert_cons. split.
    + destruct t as [s|sid].
      * destruct (parseSteamID s) as [sid|] eqn:P.
        -- destruct (SteamIDResolvablesToSteamID64 rest) as [ids'|e'] eqn:E;
             [discriminate|].
           intros H. inversion H; subst e'.
           destruct (proj1 IH eq_refl) as (b & s' & a & -> & Hb & Hs & ->).
           exists (OfString s :: b), s', a. simpl. rewrite P. auto.
        -- intros H. inversion H. exists [], s, rest. auto.
      * destruct (SteamIDResolvablesToSteamID64 rest) as [ids'|e'] eqn:E;
          [discriminate|].
        intros H. inversion H; subst e'.
        destruct (proj1 IH eq_refl) as (b & s' & a & -> & Hb & Hs & ->).
        exists (OfSteamID sid :: b), s', a. simpl. auto.
    + intros (before & s & after & H & Hb & Hs & ->).
      destruct before as [|t' b]; simpl in H; inversion H; subst.
      * now rewrite Hs.
      * simpl in Hb. apply andb_true_iff in Hb. destruct Hb as [Ht Hb].
        assert (R : SteamIDResolvablesToSteamID64 (b ++ OfString s :: after)
                    = Throw (SteamIDError s))
          by (apply IH; exists b, s, after; auto).
        rewrite R. destruct t' as [s'|sid]; [|reflexivity].
        simpl in Ht. now destruct (parseSteamID s').
Qed.

(** What the conversion throws is always an error of the constructor on
    one of the string targets. *)
Lemma conversion_error_shape
    (targets : list SteamIDResolvable) (e : Thrown) :
  SteamIDResolvablesToSteamID64 targets = Throw e ->
  exists s, In (OfString s) targets /\ e = SteamIDError s.
Proof.
  induction targets as [|t rest IH]; [discriminate|].
  rewrite convert_cons. destruct t as [s|sid].
  - destruct (parseSteamID s).
    + destruct (SteamIDResolvablesToSteamID64 rest); [discriminate|].
      intros H. inversion H; subst.
      destruct (IH eq_refl) as (s' & Hin & ->). exists s'. simpl. auto.
    + intros H. inversion H. exists s. simpl. auto.
  - destruct (SteamIDResolvablesToSteamID64 rest); [discriminate|].
    intros H. inversion H; subst.
    destruct (IH eq_refl) as (s' & Hin & ->). exists s'. simpl. auto.
Qed.

End WithPackage.

(** An object, a string and the order they come in. *)
Lemma conversion_pointwise_witness :
  @SteamIDResolvablesToSteamID64 DecimalSteamID.package
    [@OfSteamID DecimalSteamID.package "76561197960287930";
     OfString "76561197960265728"]
  = Return ["76561197960287930"; "76561197960265728"].
Proof.
  apply (proj2 (@conversion_pointwise DecimalSteamID.package _ _)).
  repeat constructor. now exists "76561197960265728".
Defined.

(** The second target is the first one rejected; the third would be too. *)
Lemma conversion_first_rejected_witness :
  @SteamIDResolvablesToSteamID64 DecimalSteamID.package
    [OfString "76561197960287930"; OfString "gabe"; OfString "newell"]
  = Throw (SteamIDError "gabe").
Proof.
  apply (proj2 (@conversion_first_rejected DecimalSteamID.package _ _)).
  exists [OfString "76561197960287930"], "gabe", [OfString "newell"].
  repeat split.
Defined.

End Conversion.

(** ** The fetchers, outcome by outcome *)

Module Fetchers.
Import SteamAPIController ConversionSpec.

Section WithPackage.
Context `{pkg : SteamIDPackage}.
Variable axios : Axios.

Lemma within_limit {A} (targets : list A) :
  List.length targets <= 100 -> (100 <? List.length targets)%nat = false.
Proof. intros H. now apply Nat.ltb_ge. Qed.

(** A fetch whose targets pass the count and the conversion is one
    request and a case analysis on how it settles. *)
Lemma summaries_run (targets : list SteamIDResolvable) (ids : list string)
    (st : State) :
  List.length targets <= 100 ->
  SteamIDResolvablesToSteamID64 targets = Return ids ->
  GetPlayerSummaries axios targets st =
  match summaries axios (summariesURL (apiKey st) ids) with
  | Rejected reason =>
      (Throw (AxiosError reason), sent (summariesURL (apiKey st) ids) st)
  | Resolved (Some r) =>
      (Return (collect (players r)), sent (summariesURL (apiKey st) ids) st)
  | Resolved None => (Return [], sent (summariesURL (apiKey st) ids) st)
  end.
Proof.
  intros Hlen Hids. unfold GetPlayerSummaries.
  rewrite (within_limit _ Hlen). unfold lift, axios_get, readApiKey. simpl.
  rewrite Hids. now destruct (summaries axios _) as [?|[?|]].
Qed.

Lemma bans_run (targets : list SteamIDResolvable) (ids : list string)
    (st : State) :
  List.length targets <= 100 ->
  SteamIDResolvablesToSteamID64 targets = Return ids ->
  GetPlayerBans axios targets st =
  match bans axios (bansURL (apiKey st) ids) with
  | Rejected reason =>
      (Throw (AxiosError reason), sent (bansURL (apiKey st) ids) st)
  | Resolved (Some r) =>
      (Return (collect (bans_players r)), sent (bansURL (apiKey st) ids) st)
  | Resolved None => (Return [], sent (bansURL (apiKey st) ids) st)
  end.
Proof.
  intros Hlen Hids. unfold GetPlayerBans.
  rewrite (within_limit _ Hlen). unfold lift, axios_get, readApiKey. simpl.
  rewrite Hids. now destruct (bans axios _) as [?|[?|]].
Qed.

Lemma legacy_run (targets : list string) (st : State) :
  List.length targets <= 100 ->
  LegacyController.getPlayerSummaries axios targets st =
  match summaries axios (summariesURL (apiKey st) targets) with
  | Rejected reason =>
      (Throw (AxiosError reason), sent (summariesURL (apiKey st) targets) st)
  | Resolved (Some r) =>
      (Return (collect (players r)), sent (summariesURL (apiKey st) targets) st)
  | Resolved None => (Return [], sent (summariesURL (apiKey st) targets) st)
  end.
Proof.
  intros Hlen. unfold LegacyController.getPlayerSummaries.
  rewrite (within_limit _ Hlen). unfold axios_get, readApiKey. simpl.
  now destruct (summaries axios _) as [?|[?|]].
Qed.

Lemma vanity_run (name : string) (st : State) :
  resolveVanityUrl axios name st =
  (match vanity axios (vanityURL (apiKey st) name) with
   | Rejected reason => Throw (AxiosError reason)
   | Resolved None => Throw (ThrownString "Could not reach the VanityURL API")
   | Resolved (Some r) =>
       match steamid r with
       | Some (String _ _ as id) => new_SteamID id
       | _ => Throw (ThrownString "Not a valid SteamID")
       end
   end, sent (vanityURL (apiKey st) name) st).
Proof.
  unfold resolveVanityUrl, axios_get, readApiKey, sent. simpl.
  destruct (vanity axios _) as [?|[r|]]; try reflexivity.
  now destruct (steamid r) as [[|c id]|].
Qed.

Lemma conversion_fails (targets : list SteamIDResolvable) (st : State)
    (e : Thrown) :
  List.length targets <= 100 ->
  SteamIDResolvablesToSteamID64 targets = Throw e ->
  GetPlayerSummaries axios targets st = (Throw e, st) /\
  GetPlayerBans axios targets st = (Throw e, st).
Proof.
  intros Hlen He. unfold GetPlayerSummaries, GetPlayerBans.
  rewrite (within_limit _ Hlen). unfold lift. simpl. now rewrite He.
Qed.

(** With 100 targets or fewer, a bulk fetcher does not throw the
    "only 100" error: what it then throws comes from the conversion or
    from the request. *)
Lemma limit_error_needs_over_100 (targets : list SteamIDResolvable)
    (st : State) :
  fst (GetPlayerSummaries axios targets st) = Throw (ErrorObject tooMany) \/
  fst (GetPlayerBans axios targets st) = Throw (ErrorObject tooMany) ->
  100 < List.length targets.
Proof.
  intros H. destruct (Nat.lt_ge_cases 100 (List.length targets)) as [L | L];
    [exact L | exfalso].
  destruct (SteamIDResolvablesToSteamID64 targets) as [ids|e0] eqn:E.
  - rewrite (summaries_run _ _ st L E), (bans_run _ _ st L E) in H.
    destruct H as [H | H].
    + destruct (summaries axios _) as [reason|[r|]]; discriminate.
    + destruct (bans axios _) as [reason|[r|]]; discriminate.
  - destruct (conversion_fails _ st _ L E) as [Hs Hb].
    rewrite Hs, Hb in H. simpl in H.
    destruct (Conversion.conversion_error_shape _ _ E) as (s & _ & ->).
    destruct H as [H | H]; discriminate.
Qed.

(** X3: when a string target is rejected, both bulk fetchers throw the
    constructor's error and send nothing: the state, request log
    included, is the one they started from. *)
Theorem rejected_target_sends_nothing
    (targets : list SteamIDResolvable) (st : State) (e : Thrown) :
  List.length targets <= 100 ->
  SteamIDResolvablesToSteamID64 targets = Throw e ->
  GetPlayerSummaries axios targets st = (Throw e, st) /\
  GetPlayerBans axios targets st = (Throw e, st).
Proof. apply conversion_fails. Qed.

(** X4: the "only 100" error is thrown for more than 100 targets and
    for nothing else: with 100 targets or fewer, whatever a bulk fetcher
    throws is a different value. *)
Theorem limit_error_iff_over_100
    (targets : list SteamIDResolvable) (st : State) :
  (fst (GetPlayerSummaries axios targets st) = Throw (ErrorObject tooMany)
   <-> 100 < List.length targets) /\
  (fst (GetPlayerBans axios targets st) = Throw (ErrorObject tooMany)
   <-> 100 < List.length targets).
Proof.
  split; split; intros H;
    try (destruct (BulkFetch.over_limit axios targets st H) as [Hs Hb];
         now rewrite ?Hs, ?Hb).
  - apply (limit_error_needs_over_100 targets st). now left.
  - apply (limit_error_needs_over_100 targets st). now right.
Qed.

(** X6: the [players] array of a summaries response reaches the caller
    unchanged and in the order received, after exactly one request; this
    holds for [GetPlayerSummaries] and for the fetcher of [src/index.ts]. *)
Theorem players_pass_through
    (targets : list SteamIDResolvable) (ids : list string) (st : State) :
  List.length targets <= 100 ->
  SteamIDResolvablesToSteamID64 targets = Return ids ->
  (forall r l,
     summaries axios (summariesURL (apiKey st) ids) = Resolved (Some r) ->
     players r = Some l ->
     GetPlayerSummaries axios targets st
     = (Return l, sent (summariesURL (apiKey st) ids) st)) /\
  (forall r l,
     List.length ids <= 100 ->
     summaries axios (summariesURL (apiKey st) ids) = Resolved (Some r) ->
     players r = Some l ->
     LegacyController.getPlayerSummaries axios ids st
     = (Return l, sent (summariesURL (apiKey st) ids) st)).
Proof.
  intros Hlen Hids. split; intros r l.
  - intros Hr Hl. rewrite (summaries_run _ _ st Hlen Hids), Hr, Hl.
    now rewrite BulkFetch.collect_Some.
  - intros Hl' Hr Hl. rewrite (legacy_run _ st Hl'), Hr, Hl.
    now rewrite BulkFetch.collect_Some.
Qed.

(** X7: a rejected request is rethrown as it is, by the bulk fetchers
    and by the vanity lookup alike, and the request stays in the log. *)
Theorem rejection_is_rethrown
    (targets : list SteamIDResolvable) (ids : list string)
    (name reason : string) (st : State) :
  List.length targets <= 100 ->
  SteamIDResolvablesToSteamID64 targets = Return ids ->
  (summaries axios (summariesURL (apiKey st) ids) = Rejected reason ->
   GetPlayerSummaries axios targets st
   = (Throw (AxiosError reason), sent (summariesURL (apiKey st) ids) st)) /\
  (bans axios (bansURL (apiKey st) ids) = Rejected reason ->
   GetPlayerBans axios targets st
   = (Throw (AxiosError reason), sent (bansURL (apiKey st) ids) st)) /\
  (vanity axios (vanityURL (apiKey st) name) = Rejected reason ->
   resolveVanityUrl axios name st
   = (Throw (AxiosError reason), sent (vanityURL (apiKey st) name) st)).
Proof.
  intros Hlen Hids. split; [|split]; intros H.
  - now rewrite (summaries_run _ _ st Hlen Hids), H.
  - now rewrite (bans_run _ _ st Hlen Hids), H.
  - now rewrite vanity_run, H.
Qed.

(** X8: a request that resolves with a falsy response is not an error for
    a bulk fetcher, which returns the empty array, but it is one for the
    vanity lookup, which throws ['Could not reach the VanityURL API']. *)
Theorem falsy_response
    (targets : list SteamIDResolvable) (ids : list string)
    (name : string) (st : State) :
  List.length targets <= 100 ->
  SteamIDResolvablesToSteamID64 targets = Return ids ->
  (summaries axios (summariesURL (apiKey st) ids) = Resolved None ->
   fst (GetPlayerSummaries axios targets st) = Return []) /\
  (bans axios (bansURL (apiKey st) ids) = Resolved None ->
   fst (GetPlayerBans axios targets st) = Return []) /\
  (vanity axios (vanityURL (apiKey st) name) = Resolved None ->
   fst (resolveVanityUrl axios name st)
   = Throw (ThrownString "Could not reach the VanityURL API")).
Proof.
  intros Hlen Hids. split; [|split]; intros H.
  - now rewrite (summaries_run _ _ st Hlen Hids), H.
  - now rewrite (bans_run _ _ st Hlen Hids), H.
  - now rewrite vanity_run, H.
Qed.

(** X9: an empty list of targets is not special: each bulk fetcher still
    sends its request, with nothing after [steamids=]. *)
Theorem no_targets_one_request (st : State) :
  requests (snd (GetPlayerSummaries axios [] st))
  = (requests st ++
     [("http://api.steampowered.com/ISteamUser/GetPlayerSummaries/v0002/?key="
         ++ apiKey st ++ "&steamids=")%string])%list /\
  requests (snd (GetPlayerBans axios [] st))
  = (requests st ++
     [("http://api.steampowered.com/ISteamUser/GetPlayerBans/v1/?key="
         ++ apiKey st ++ "&steamids=")%string])%list.
Proof.
  rewrite (summaries_run [] [] st), (bans_run [] [] st);
    try reflexivity; try (simpl; lia).
  split.
  - now destruct (summaries axios _) as [?|[?|]].
  - now destruct (bans axios _) as [?|[?|]].
Qed.

(** X11: the fetcher of [src/index.ts] throws the "only 100" text as a
    bare string, sending nothing; with 100 targets or fewer it sends its
    request with the targets joined as they are, valid or not. *)
Theorem legacy_limit_and_request (targets : list string) (st : State) :
  (100 < List.length targets ->
   LegacyController.getPlayerSummaries axios targets st
   = (Throw (ThrownString tooMany), st)) /\
  (List.length targets <= 100 ->
   snd (LegacyController.getPlayerSummaries axios targets st)
   = sent (summariesURL (apiKey st) targets) st).
Proof.
  split; intros H.
  - apply Nat.ltb_lt in H. unfold LegacyController.getPlayerSummaries.
    now rewrite H.
  - rewrite (legacy_run _ st H).
    now destruct (summaries axios _) as [?|[?|]].
Qed.

End WithPackage.

Lemma rejected_target_sends_nothing_witness :
  let targets :=
    [@OfString DecimalSteamID.package "76561197960287930"; OfString "gabe"] in
  GetPlayerSummaries Samples.no_match targets initial
    = (Throw (SteamIDError "gabe"), initial) /\
  GetPlayerBans Samples.no_match targets initial
    = (Throw (SteamIDError "gabe"), initial).
Proof.
  apply (@rejected_target_sends_nothing DecimalSteamID.package);
    [simpl; lia | reflexivity].
Defined.

(** One hundred targets are within the limit. *)
Lemma limit_error_iff_over_100_witness :
  let targets :=
    repeat (@OfString DecimalSteamID.package "76561197960287930") 100 in
  fst (GetPlayerSummaries Samples.no_match targets initial)
  <> Throw (ErrorObject tooMany).
Proof.
  intros targets H.
  apply (proj1 (@limit_error_iff_over_100 DecimalSteamID.package
                  Samples.no_match targets initial)) in H.
  unfold targets in H. rewrite repeat_length in H. lia.
Defined.

(** Two players listed, two players returned, in that order. *)
Lemma players_pass_through_witness :
  let a := "76561197960287930" in
  let b := "76561197960265728" in
  let axios := MoreSamples.listing [MoreSamples.gabe; MoreSamples.robin] [] in
  let targets :=
    [@OfString DecimalSteamID.package a;
     @OfSteamID DecimalSteamID.package b] in
  fst (GetPlayerSummaries axios targets initial)
  = Return [MoreSamples.gabe; MoreSamples.robin] /\
  fst (LegacyController.getPlayerSummaries axios [a; b] initial)
  = Return [MoreSamples.gabe; MoreSamples.robin].
Proof.
  intros a b axios targets.
  destruct (@players_pass_through DecimalSteamID.package axios
              targets [a; b] initial) as (H1 & H3);
    [simpl; lia | reflexivity |].
  split.
  - now rewrite (H1 _ _ eq_refl eq_refl).
  - rewrite (H3 _ _ ltac:(simpl; lia) eq_refl eq_refl). reflexivity.
Defined.

Lemma rejection_is_rethrown_witness :
  @resolveVanityUrl DecimalSteamID.package Samples.unreachable
    "coolname" initial
  = (Throw (AxiosError "ECONNREFUSED"),
     {| apiKey := ""; requests := [vanityURL "" "coolname"] |}).
Proof.
  apply (@rejection_is_rethrown DecimalSteamID.package Samples.unreachable
           [] [] "coolname" "ECONNREFUSED" initial);
    [simpl; lia | reflexivity | reflexivity].
Defined.

Lemma falsy_response_witness :
  fst (GetPlayerSummaries MoreSamples.blank
         [@OfString DecimalSteamID.package "76561197960287930"] initial)
  = Return [] /\
  fst (@resolveVanityUrl DecimalSteamID.package MoreSamples.blank
         "coolname" initial)
  = Throw (ThrownString "Could not reach the VanityURL API").
Proof.
  destruct (@falsy_response DecimalSteamID.package MoreSamples.blank
              [@OfString DecimalSteamID.package "76561197960287930"]
              ["76561197960287930"] "coolname" initial)
    as (H1 & _ & H3); [simpl; lia | reflexivity |].
  split; [now apply H1 | now apply H3].
Defined.

(** 101 strings, then two strings that are no identifiers at all. *)
Lemma legacy_limit_and_request_witness :
  LegacyController.getPlayerSummaries Samples.no_match (repeat "x" 101) initial
    = (Throw (ThrownString tooMany), initial) /\
  requests (snd (LegacyController.getPlayerSummaries Samples.no_match
                   ["gabe"; "newell"] (setApiKey "0123ABCD" initial)))
  = ["http://api.steampowered.com/ISteamUser/GetPlayerSummaries/v0002/?key=0123ABCD&steamids=gabe,newell"].
Proof.
  split.
  - apply (proj1 (legacy_limit_and_request Samples.no_match _ initial)).
    rewrite repeat_length. lia.
  - rewrite (proj2 (legacy_limit_and_request Samples.no_match
                      ["gabe"; "newell"] (setApiKey "0123ABCD" initial)));
      [reflexivity | simpl; lia].
Defined.

End Fetchers.

(** ** [resolveURL]: lengths and fixed points *)

Module Normalizer.
Import Str UrlSpec StrFacts.

Lemma length_append (a b : string) :
  String.length (a ++ b) = String.length a + String.length b.
Proof. induction a as [|c a IH]; simpl; [reflexivity | now rewrite IH]. Qed.

Lemma match_length (tail m : string) :
  IsMatch tail m -> 4 <= String.length m.
Proof. intros [-> | ->]; simpl; lia. Qed.

Lemma replace_first_shorter (tail s : string) :
  String.length (regex_replace_first tail s) <= String.length s /\
  (regex_test tail s = true ->
   String.length (regex_replace_first tail s) < String.length s).
Proof.
  destruct (regex_replace_first_spec tail s)
    as [[Hno ->] | (a & m & b & -> & -> & Hm & _)].
  - split; [lia|]. intros T. apply regex_test_Occurs in T. contradiction.
  - apply match_length in Hm. rewrite !length_append. split; intros; lia.
Qed.

Lemma replace_first_char_shorter (c : ascii) (s : string) :
  String.length (replace_first_char c s) <= String.length s.
Proof.
  induction s as [|d s IH]; simpl; [lia|].
  destruct (Ascii.eqb c d); simpl; lia.
Qed.

Lemma resolveURL_shrinks (url : string) :
  String.length (resolveURL url) <= String.length url /\
  (regex_test profilesRegex url || regex_test customRegex url = true ->
   String.length (resolveURL url) < String.length url).
Proof.
  unfold resolveURL.
  destruct (regex_test profilesRegex url) eqn:P; simpl.
  - pose proof (proj2 (replace_first_shorter profilesRegex url) P) as H1.
    pose proof (proj1 (replace_first_shorter customRegex
                         (regex_replace_first profilesRegex url))) as H2.
    pose proof (replace_first_char_shorter "/"
                  (regex_replace_first customRegex
                     (regex_replace_first profilesRegex url))) as H3.
    split; intros; lia.
  - destruct (regex_test customRegex url) eqn:C.
    + assert (E : regex_replace_first profilesRegex url = url).
      { destruct (regex_replace_first_spec profilesRegex url)
          as [[_ ->] | (a & m & b & -> & _ & Hm & _)]; [reflexivity|].
        assert (T : regex_test profilesRegex (a ++ m ++ b) = true).
        { apply regex_test_Occurs. exists a, (m ++ b). split; [|reflexivity].
          now exists m, b. }
        rewrite T in P. discriminate. }
      rewrite E.
      pose proof (proj2 (replace_first_shorter customRegex url) C) as H1.
      pose proof (replace_first_char_shorter "/"
                    (regex_replace_first customRegex url)) as H3.
      split; intros; lia.
    + split; [lia | discriminate].
Qed.

(** X12: [resolveURL] never returns a longer string, and it returns its
    input unchanged exactly when neither pattern occurs in it: an input in
    which a pattern occurs always comes back strictly shorter. *)
Theorem resolveURL_fixed_points (url : string) :
  String.length (resolveURL url) <= String.length url /\
  (resolveURL url = url <-> Unrecognized url) /\
  (~ Unrecognized url -> String.length (resolveURL url) < String.length url).
Proof.
  destruct (resolveURL_shrinks url) as [Hle Hlt]. split; [exact Hle|].
  assert (D : Unrecognized url \/
              regex_test profilesRegex url || regex_test customRegex url = true).
  { unfold Unrecognized.
    destruct (regex_test profilesRegex url), (regex_test customRegex url);
      simpl; auto. }
  split; [split|].
  - intros E. destruct D as [U | T]; [exact U|].
    apply Hlt in T. rewrite E in T. lia.
  - apply ResolveURL.resolveURL_unrecognized.
  - intros N. destruct D as [U | T]; [contradiction | now apply Hlt].
Qed.

Lemma resolveURL_fixed_points_witness :
  String.length (resolveURL "my profile: http://steamcommunity.com/id/gabe")
  < String.length "my profile: http://steamcommunity.com/id/gabe".
Proof.
  apply (proj2 (proj2 (resolveURL_fixed_points _))).
  intros [_ C]. discriminate C.
Defined.

End Normalizer.

(** ** The resolvers, path by path *)

Module ResolverPaths.
Import SteamAPIController UrlSpec.

Section WithPackage.
Context `{pkg : SteamIDPackage}.
Variable axios : Axios.

(** X13: [getSteamID] on a profile URL is the constructor on the bare
    token, and on a string neither pattern matches it is the constructor
    on the string itself; so it fails exactly when the constructor rejects
    that token, respectively that string. *)
Theorem getSteamID_on_urls (url : string) :
  (forall token, ProfileURL url token -> getSteamID url = new_SteamID token) /\
  (Unrecognized url -> getSteamID url = new_SteamID url).
Proof.
  unfold getSteamID. split.
  - intros token H. now rewrite (ResolveURL.resolveURL_ProfileURL _ _ H).
  - intros H. now rewrite (ResolveURL.resolveURL_unrecognized _ H).
Qed.

(** X14: [getSteamIDAsync] sends nothing when its input is a valid
    identifier as it stands, and otherwise exactly one request, the vanity
    lookup of the normalized input, whether or not that normalized input
    is itself a valid identifier. *)
Theorem resolver_requests (s : string) (st : State) :
  snd (getSteamIDAsync axios s st) =
  if isValidSteamID s then st
  else sent (vanityURL (apiKey st) (resolveURL s)) st.
Proof.
  destruct (isValidSteamID s) eqn:V.
  - destruct (Resolver.isValidSteamID_true _ V) as [sid Hsid].
    now rewrite (Resolver.valid_resolves_locally axios _ _ st Hsid).
  - rewrite (Resolver.getSteamIDAsync_invalid axios _ _ V).
    rewrite Fetchers.vanity_run.
    now destruct (match vanity axios _ with Rejected _ => _ | Resolved _ => _ end).
Qed.

(** X15: for an input that is not a valid identifier as it stands, an
    identifier named by the remote service wins: the result is built from
    the 64-bit string of the answer, also when the normalized input is an
    identifier of its own.  When the package reads its own 64-bit strings
    back, the result is the answered identifier. *)
Theorem remote_answer_wins
    (s id : string) (st : State) (r : VanityURLResponse) (sid : SteamID) :
  isValidSteamID s = false ->
  vanity axios (vanityURL (apiKey st) (resolveURL s)) = Resolved (Some r) ->
  steamid r = Some id -> id <> "" ->
  parseSteamID id = Some sid ->
  fst (getSteamIDAsync axios s st) = new_SteamID (getSteamID64 sid) /\
  (parseSteamID (getSteamID64 sid) = Some sid ->
   fst (getSteamIDAsync axios s st) = Return sid).
Proof.
  intros V Hr Hid Hne Hsid.
  assert (E : fst (getSteamIDAsync axios s st) = new_SteamID (getSteamID64 sid)).
  { rewrite (Resolver.getSteamIDAsync_invalid axios _ _ V).
    rewrite Fetchers.vanity_run, Hr, Hid.
    destruct id as [|c id]; [now elim Hne|].
    now rewrite (Resolver.new_SteamID_Some _ _ Hsid). }
  split; [exact E|].
  intros Hback. now rewrite E, (Resolver.new_SteamID_Some _ _ Hback).
Qed.

(** X16: a profile URL around an identifier still resolves when the
    vanity lookup fails: the identifier of the bare token is returned. *)
Theorem profile_url_survives_lookup_failure
    (url token : string) (st : State) (e : Thrown) (sid : SteamID) :
  ProfileURL url token ->
  isValidSteamID url = false ->
  fst (resolveVanityUrl axios token st) = Throw e ->
  parseSteamID token = Some sid ->
  fst (getSteamIDAsync axios url st) = Return sid.
Proof.
  intros Hu V He Hsid.
  rewrite (Resolver.getSteamIDAsync_invalid axios _ _ V).
  rewrite (ResolveURL.resolveURL_ProfileURL _ _ Hu).
  destruct (resolveVanityUrl axios token st) as [[x|e'] st'];
    simpl in He; [discriminate|].
  simpl. now apply Resolver.new_SteamID_Some.
Qed.

End WithPackage.

Lemma getSteamID_on_urls_witness :
  @getSteamID DecimalSteamID.package
    "https://steamcommunity.com/profiles/76561197960287930/"
  = Return "76561197960287930".
Proof.
  refine (proj1 (@getSteamID_on_urls DecimalSteamID.package _)
            "76561197960287930" _).
  exists "https://steamcommunity.com/profiles/", "/". simpl. intuition.
Defined.

(** The URL carries one identifier, the service answers with another. *)
Lemma remote_answer_wins_witness :
  fst (@getSteamIDAsync DecimalSteamID.package
         (Samples.answering "76561197960265728")
         "https://steamcommunity.com/profiles/76561197960287930/" initial)
  = Return "76561197960265728".
Proof.
  refine (proj2 (@remote_answer_wins DecimalSteamID.package
                   (Samples.answering "76561197960265728")
                   "https://steamcommunity.com/profiles/76561197960287930/"
                   "76561197960265728" initial
                   {| success := 1%Z; steamid := Some "76561197960265728";
                      message := None |}
                   "76561197960265728" _ _ _ _ _) _);
    try reflexivity. discriminate.
Defined.

Lemma profile_url_survives_lookup_failure_witness :
  fst (@getSteamIDAsync DecimalSteamID.package Samples.unreachable
         "https://steamcommunity.com/profiles/76561197960287930/" initial)
  = Return "76561197960287930".
Proof.
  apply (@profile_url_survives_lookup_failure DecimalSteamID.package
           Samples.unreachable _ "76561197960287930" initial
           (AxiosError "ECONNREFUSED")); try reflexivity.
  exists "https://steamcommunity.com/profiles/", "/". simpl. intuition.
Defined.

End ResolverPaths.
